(** * Unified data schema for the State of Open Data surveys

    A shallow embedding of [unified_data_schema.py]: the question
    catalogue (four literal dictionaries of [QuestionMapping] records), the
    query methods of [UnifiedSchema] and the two harmonization utilities,
    followed by the properties of the catalogue and of the queries.

    Conventions of the embedding:
    - a Python [dict] is a finite map ([gmap]); a dict literal inserts its
      items from left to right, [d.update(other)] lets [other] win on a
      shared key, a dict comprehension with a condition is [filter];
    - a Python [int] is a [Z], a [str] a [string], a [list] a [list];
    - operations of the source that can raise ([list.index], [list[i]])
      live in the [result] monad. *)

From stdpp Require Import gmap strings list fin_maps sorting.

Local Open Scope string_scope.
Local Open Scope Z_scope.

(** ** Python primitives used by the module *)

(** The exceptions the list primitives of the source can raise. *)
Inductive exn : Type :=
| ValueError
| IndexError.

Inductive result (A : Type) : Type :=
| Return (a : A)
| Raise (e : exn).

Arguments Return {A} a.
Arguments Raise {A} e.

Definition bind {A B : Type} (r : result A) (k : A → result B) : result B :=
  match r with
  | Return a => k a
  | Raise e => Raise e
  end.

Notation "x ←! r ; k" := (bind r (λ x, k))
  (at level 20, r at level 100, k at level 200, right associativity,
   format "x  ←!  r ;  '/' k").

(** [{k1: v1, ..., kn: vn}]: items are stored from left to right, so a
    repeated key keeps its last value. *)
Definition dict_literal {K V : Type} `{Countable K}
    (items : list (K * V)) : gmap K V :=
  foldl (λ d kv, <[kv.1 := kv.2]> d) ∅ items.

(** [d.update(other)]: every item of [other] is stored into [d]. *)
Definition dict_update {K V : Type} `{Countable K}
    (d other : gmap K V) : gmap K V :=
  other ∪ d.

(** [x in l] on a list of strings. *)
Fixpoint list_contains (x : string) (l : list string) : bool :=
  match l with
  | [] => false
  | y :: l' => if decide (y = x) then true else list_contains x l'
  end.

(** [l.index(x)]: position of the first element equal to [x];
    [ValueError] when there is none. *)
Fixpoint list_index (x : string) (l : list string) : result nat :=
  match l with
  | [] => Raise ValueError
  | y :: l' =>
      if decide (y = x) then Return 0%nat
      else i ←! list_index x l'; Return (S i)
  end.

(** [l[i]] for a non-negative index; [IndexError] out of range. *)
Definition list_getitem (l : list string) (i : nat) : result string :=
  match l !! i with
  | Some x => Return x
  | None => Raise IndexError
  end.

(** ** Data model *)

Inductive QuestionType : Type :=
| LIKERT_5
| LIKERT_4
| LIKERT_3
| MULTIPLE_CHOICE
| MULTIPLE_SELECT
| OPEN_TEXT
| DEMOGRAPHIC
| BINARY.

(** The [.value] of a member of the [QuestionType] enumeration. *)
Definition QuestionType_value (t : QuestionType) : string :=
  match t with
  | LIKERT_5 => "likert_5"
  | LIKERT_4 => "likert_4"
  | LIKERT_3 => "likert_3"
  | MULTIPLE_CHOICE => "multiple_choice"
  | MULTIPLE_SELECT => "multiple_select"
  | OPEN_TEXT => "open_text"
  | DEMOGRAPHIC => "demographic"
  | BINARY => "binary"
  end.

Inductive ResponseScale : Type :=
| AGREEMENT_5
| AGREEMENT_5_ALT
| FREQUENCY_4
| FREQUENCY_4_ALT
| YES_NO_UNSURE
| YES_NO_DONT_KNOW
| CREDIT_3
| FAMILIARITY_3.

(** The [.value] of a member of the [ResponseScale] enumeration. *)
Definition value (s : ResponseScale) : list string :=
  match s with
  | AGREEMENT_5 =>
      ["Strongly disagree"; "Somewhat disagree"; "Neutral";
       "Somewhat agree"; "Strongly agree"]
  | AGREEMENT_5_ALT =>
      ["Strongly disagree"; "Somewhat disagree"; "Neutral / No opinion";
       "Somewhat agree"; "Strongly agree"]
  | FREQUENCY_4 => ["Never"; "Rarely"; "Sometimes"; "Frequently"]
  | FREQUENCY_4_ALT => ["Never"; "Rarely"; "Often"; "Always"]
  | YES_NO_UNSURE => ["Yes"; "No"; "Unsure"]
  | YES_NO_DONT_KNOW => ["Yes"; "No"; "Don't know"]
  | CREDIT_3 => ["No, too little credit"; "Yes"; "No, too much credit"]
  | FAMILIARITY_3 =>
      ["I am familiar with the data principles";
       "I have previously heard of the data principles but I am not familiar with them";
       "I have never heard of the data principles before now"]
  end.

Record QuestionMapping : Type := mkQuestionMapping {
  question_id : string;
  question_text : string;
  question_type : QuestionType;
  response_scale : list string;
  years_available : list Z;
  column_mappings : gmap Z string;
  notes : option string
}.

Record UnifiedSchema : Type := mkUnifiedSchema {
  core_questions : gmap string QuestionMapping;
  demographic_questions : gmap string QuestionMapping;
  supplementary_questions : gmap string QuestionMapping;
  historical_questions : gmap string QuestionMapping
}.

(** ** The question catalogue *)

Definition _define_core_questions : gmap string QuestionMapping :=
  dict_literal [
    ("open_access_attitude", {|
       question_id := "open_access_attitude";
       question_text := "Making research articles open access should be common scholarly practice";
       question_type := LIKERT_5;
       response_scale := value AGREEMENT_5;
       years_available := [2021; 2022; 2023; 2024];
       column_mappings := dict_literal [
         (2021, "Q2.7_1");
         (2022, "Q2.11_1");
         (2023, "Q2.10.a");
         (2024, "Q12_1")];
       notes := Some "Highest consistency across years - core trend indicator" |});
    ("open_data_attitude", {|
       question_id := "open_data_attitude";
       question_text := "Making research data openly available should be common scholarly practice";
       question_type := LIKERT_5;
       response_scale := value AGREEMENT_5;
       years_available := [2021; 2022; 2023; 2024];
       column_mappings := dict_literal [
         (2021, "Q2.7_2");
         (2022, "Q2.11_2");
         (2023, "Q2.10.b");
         (2024, "Q12_2")];
       notes := Some "Core data sharing attitude - primary outcome measure" |});
    ("open_peer_review_attitude", {|
       question_id := "open_peer_review_attitude";
       question_text := "Making peer review open should be common scholarly practice";
       question_type := LIKERT_5;
       response_scale := value AGREEMENT_5;
       years_available := [2022; 2023; 2024];
       column_mappings := dict_literal [
         (2022, "Q2.11_3");
         (2023, "Q2.10.c");
         (2024, "Q12_3")];
       notes := Some "Introduced in 2022 - good trend indicator" |});
    ("preprinting_attitude", {|
       question_id := "preprinting_attitude";
       question_text := "Preprinting should be common scholarly practice";
       question_type := LIKERT_5;
       response_scale := value AGREEMENT_5;
       years_available := [2022; 2023; 2024];
       column_mappings := dict_literal [
         (2022, "Q2.11_4");
         (2023, "Q2.10.d");
         (2024, "Q12_4")];
       notes := Some "Introduced in 2022 - tracks preprint adoption attitudes" |});
    ("data_sharing_frequency", {|
       question_id := "data_sharing_frequency";
       question_text := "How often have you made your research data openly available?";
       question_type := LIKERT_4;
       response_scale := value FREQUENCY_4;
       years_available := [2017];
       column_mappings := dict_literal [
         (2017, "Q2.2")];
       notes := Some "Core behavioral measure - need to map similar questions in other years" |});
    ("credit_for_sharing", {|
       question_id := "credit_for_sharing";
       question_text := "Do you think researchers currently get sufficient credit for sharing data?";
       question_type := MULTIPLE_CHOICE;
       response_scale := value CREDIT_3;
       years_available := [2019; 2022];
       column_mappings := dict_literal [
         (2019, "Q2.4");
         (2022, "Q3.2")];
       notes := Some "Important motivational factor" |});
    ("fair_principles_awareness", {|
       question_id := "fair_principles_awareness";
       question_text := "How familiar are you with FAIR data principles (Findable, Accessible, Interoperable, Reusable)?";
       question_type := MULTIPLE_CHOICE;
       response_scale := value FAMILIARITY_3;
       years_available := [2022; 2023];
       column_mappings := dict_literal [
         (2022, "Q3.1_1");
         (2023, "Q2.11.a")];
       notes := Some "Key knowledge indicator for data management" |})
  ].

Definition _define_demographic_questions : gmap string QuestionMapping :=
  dict_literal [
    ("job_title", {|
       question_id := "job_title";
       question_text := "Which of the following job titles best applies to you?";
       question_type := MULTIPLE_CHOICE;
       response_scale :=
         ["Professor"; "Associate Professor"; "Research Scientist";
          "PhD Student"; "Postdoc"; "Other"];
       years_available := [2017; 2019; 2022; 2023; 2024];
       column_mappings := dict_literal [
         (2017, "Q10.5");
         (2019, "Q6.5");
         (2022, "Q2.6");
         (2023, "Q2.6");
         (2024, "Q7")];
       notes := Some "Response categories vary by year but can be harmonized" |});
    ("research_area", {|
       question_id := "research_area";
       question_text := "Which of the following best describes your primary area of interest?";
       question_type := MULTIPLE_CHOICE;
       response_scale := ["Medicine"; "Engineering"; "Physics"; "Biology"; "Other"];
       years_available := [2021; 2022; 2023; 2024];
       column_mappings := dict_literal [
         (2021, "Q2.4");
         (2022, "Q2.7");
         (2023, "Q2.7");
         (2024, "Q8")];
       notes := Some "Consistent categories with some variation" |});
    ("publication_history", {|
       question_id := "publication_history";
       question_text := "When was the last occasion that you published or submitted a manuscript to a journal?";
       question_type := MULTIPLE_CHOICE;
       response_scale :=
         ["Within the last year"; "1-2 years ago"; "3-5 years ago";
          "More than 5 years ago"; "Never"];
       years_available := [2021; 2022; 2023; 2024];
       column_mappings := dict_literal [
         (2021, "Q2.1");
         (2022, "Q2.3");
         (2023, "Q2.1");
         (2024, "Q4")];
       notes := Some "Good indicator of research activity level" |});
    ("organization_type", {|
       question_id := "organization_type";
       question_text := "Which type of organisation do you work in?";
       question_type := MULTIPLE_CHOICE;
       response_scale :=
         ["University"; "Research institution"; "Medical school";
          "Private company"; "Other"];
       years_available := [2022; 2023; 2024];
       column_mappings := dict_literal [
         (2022, "Q2.4");
         (2023, "Q2.4");
         (2024, "Q5")];
       notes := Some "Institutional context indicator" |})
  ].

Definition _define_supplementary_questions : gmap string QuestionMapping :=
  dict_literal [
    ("funder_mandate_support", {|
       question_id := "funder_mandate_support";
       question_text := "Should funders make the sharing of research data part of their requirements for awarding grants?";
       question_type := LIKERT_3;
       response_scale := value YES_NO_DONT_KNOW;
       years_available := [2019];
       column_mappings := dict_literal [(2019, "Q2.2")];
       notes := Some "Important policy question - 2019 focus" |});
    ("national_mandate_support", {|
       question_id := "national_mandate_support";
       question_text := "How supportive would you be of a national mandate for making primary research data openly available?";
       question_type := LIKERT_5;
       response_scale :=
         ["Strongly oppose"; "Somewhat oppose"; "Neutral";
          "Somewhat support"; "Strongly support"];
       years_available := [2019];
       column_mappings := dict_literal [(2019, "Q2.3")];
       notes := Some "Policy attitude indicator" |});
    ("care_principles_awareness", {|
       question_id := "care_principles_awareness";
       question_text := "How familiar are you with CARE principles for Indigenous Data Governance?";
       question_type := MULTIPLE_CHOICE;
       response_scale := value FAMILIARITY_3;
       years_available := [2022];
       column_mappings := dict_literal [(2022, "Q3.1_2")];
       notes := Some "Ethical data governance awareness" |})
  ].

Definition _define_historical_questions : gmap string QuestionMapping :=
  dict_literal [
    ("data_sharing_motivations", {|
       question_id := "data_sharing_motivations";
       question_text := "What circumstances would motivate you to share your data?";
       question_type := MULTIPLE_SELECT;
       response_scale :=
         ["Institution requirement"; "Funder requirement"; "Transparency";
          "Credit"; "Other"];
       years_available := [2017];
       column_mappings := dict_literal [(2017, "Q2.3_*")];
       notes := Some "Comprehensive motivation analysis - 2017 baseline" |});
    ("data_sharing_effort", {|
       question_id := "data_sharing_effort";
       question_text := "How much effort is typically required to make your data re-usable by others?";
       question_type := LIKERT_4;
       response_scale := ["No effort"; "Little effort"; "Some effort"; "A lot of effort"];
       years_available := [2017];
       column_mappings := dict_literal [(2017, "Q2.5")];
       notes := Some "Barrier assessment - effort required" |});
    ("data_ownership_before_pub", {|
       question_id := "data_ownership_before_pub";
       question_text := "Who owns the data you produce during the course of your research before publication?";
       question_type := MULTIPLE_SELECT;
       response_scale := ["You"; "Your institution"; "Your funder"; "Other"];
       years_available := [2017];
       column_mappings := dict_literal [(2017, "Q2.6_*")];
       notes := Some "Ownership understanding - pre-publication" |});
    ("data_ownership_after_pub", {|
       question_id := "data_ownership_after_pub";
       question_text := "Who owns the data you produce during the course of your research after publication?";
       question_type := MULTIPLE_SELECT;
       response_scale := ["You"; "Your institution"; "Your funder"; "Other"];
       years_available := [2017];
       column_mappings := dict_literal [(2017, "Q2.7_*")];
       notes := Some "Ownership understanding - post-publication" |})
  ].

(** [UnifiedSchema()]: the constructor runs the four builders. *)
Definition __init__ : UnifiedSchema := {|
  core_questions := _define_core_questions;
  demographic_questions := _define_demographic_questions;
  supplementary_questions := _define_supplementary_questions;
  historical_questions := _define_historical_questions
|}.

(** ** Queries of [UnifiedSchema] *)

Definition get_all_questions (self : UnifiedSchema)
    : gmap string QuestionMapping :=
  let all_questions := ∅ in
  let all_questions := dict_update all_questions (core_questions self) in
  let all_questions := dict_update all_questions (demographic_questions self) in
  let all_questions := dict_update all_questions (supplementary_questions self) in
  let all_questions := dict_update all_questions (historical_questions self) in
  all_questions.

Definition get_questions_by_year (self : UnifiedSchema) (year : Z)
    : gmap string QuestionMapping :=
  filter (λ item, year ∈ years_available item.2) (get_all_questions self).

Definition get_longitudinal_questions (self : UnifiedSchema) (min_years : Z)
    : gmap string QuestionMapping :=
  filter (λ item, (Z.of_nat (length (years_available item.2)) >= min_years)%Z)
         (get_all_questions self).

(** The default value of the parameter [min_years]. *)
Definition min_years_default : Z := 2.

Definition get_core_trend_questions (self : UnifiedSchema)
    : gmap string QuestionMapping :=
  filter (λ item, (Z.of_nat (length (years_available item.2)) >= 3)%Z)
         (core_questions self).

(** ** Harmonization utilities *)

Definition harmonize_response_scale
    (response : string) (source_scale target_scale : list string)
    : result string :=
  if list_contains response source_scale then
    idx ←! list_index response source_scale;
    if decide (idx < length target_scale)%nat
    then list_getitem target_scale idx
    else Return response
  else Return response.

(** The loop [for qid, question in ....items(): mapping[qid] = ...] is a
    fold over the entries; the keys of a dictionary being distinct, the
    order of the iteration does not show in the result. *)
Definition create_harmonized_column_mapping : gmap string (gmap Z string) :=
  let schema := __init__ in
  map_fold (λ qid question mapping, <[qid := column_mappings question]> mapping)
           ∅ (get_all_questions schema).

(** ** Notions used to state the properties *)

(** [i] is the position of [x] in [l]: the index of its first occurrence. *)
Definition position_of (x : string) (l : list string) (i : nat) : Prop :=
  l !! i = Some x ∧ ∀ j, (j < i)%nat → l !! j ≠ Some x.

(** Number of years a question spans, [len(q.years_available)]. *)
Definition span (q : QuestionMapping) : nat := length (years_available q).

(** The largest span among the questions of a dictionary. *)
Definition max_span (d : gmap string QuestionMapping) : nat :=
  max_list (span <$> (map_to_list d).*2).

(** The set of [question_id] attributes of the values of a dictionary. *)
Definition question_ids (d : gmap string QuestionMapping) : gset string :=
  list_to_set (question_id <$> (map_to_list d).*2).

(** The public operations, as calls with their arguments, and the values
    they return.  Only [harmonize_response_scale] goes through primitives
    that can raise; the catalogue queries are built from dictionary
    iteration, attribute access, [in], [len] and integer comparison. *)
Inductive call : Type :=
| call_get_all_questions
| call_get_questions_by_year (year : Z)
| call_get_longitudinal_questions (min_years : Z)
| call_get_core_trend_questions
| call_harmonize_response_scale
    (response : string) (source_scale target_scale : list string)
| call_create_harmonized_column_mapping.

Inductive answer : Type :=
| questions (d : gmap string QuestionMapping)
| label (s : string)
| columns (d : gmap string (gmap Z string)).

Definition run (self : UnifiedSchema) (c : call) : result answer :=
  match c with
  | call_get_all_questions => Return (questions (get_all_questions self))
  | call_get_questions_by_year year =>
      Return (questions (get_questions_by_year self year))
  | call_get_longitudinal_questions min_years =>
      Return (questions (get_longitudinal_questions self min_years))
  | call_get_core_trend_questions =>
      Return (questions (get_core_trend_questions self))
  | call_harmonize_response_scale response source_scale target_scale =>
      s ←! harmonize_response_scale response source_scale target_scale;
      Return (label s)
  | call_create_harmonized_column_mapping =>
      Return (columns create_harmonized_column_mapping)
  end.

(** The four category dictionaries, in the order [get_all_questions]
    merges them. *)
Definition categories (self : UnifiedSchema)
    : list (gmap string QuestionMapping) :=
  [core_questions self; demographic_questions self;
   supplementary_questions self; historical_questions self].

(** The dictionaries of questions a schema hands out: its four category
    attributes and the results of its four queries. *)
Inductive exposed (self : UnifiedSchema)
    : gmap string QuestionMapping → Prop :=
| exposed_category d :
    d ∈ categories self → exposed self d
| exposed_all :
    exposed self (get_all_questions self)
| exposed_by_year year :
    exposed self (get_questions_by_year self year)
| exposed_longitudinal min_years :
    exposed self (get_longitudinal_questions self min_years)
| exposed_core_trend :
    exposed self (get_core_trend_questions self).

(** No identifier is a key of two categories. *)
Definition categories_disjoint (self : UnifiedSchema) : Prop :=
  core_questions self ##ₘ demographic_questions self
  ∧ core_questions self ##ₘ supplementary_questions self
  ∧ core_questions self ##ₘ historical_questions self
  ∧ demographic_questions self ##ₘ supplementary_questions self
  ∧ demographic_questions self ##ₘ historical_questions self
  ∧ supplementary_questions self ##ₘ historical_questions self.

(** Every key of the dictionary is the [question_id] of its value. *)
Definition keyed_by_id (d : gmap string QuestionMapping) : Prop :=
  map_Forall (λ qid q, qid = question_id q) d.

(** The keys of [column_mappings] are exactly the years of
    [years_available], for every question of the dictionary. *)
Definition columns_match_years (d : gmap string QuestionMapping) : Prop :=
  map_Forall
    (λ _ q, dom (column_mappings q) = list_to_set (years_available q)) d.

(** Number of points of a Likert question type, as the comments of
    [QuestionType] give it. *)
Definition likert_points (t : QuestionType) : option nat :=
  match t with
  | LIKERT_5 => Some 5%nat
  | LIKERT_4 => Some 4%nat
  | LIKERT_3 => Some 3%nat
  | _ => None
  end.

(** The years for which the catalogue has at least one question. *)
Definition survey_years : list Z := [2017; 2019; 2021; 2022; 2023; 2024].

(** In a flattened column mapping, a source column of a year belongs to
    one question only. *)
Definition columns_unambiguous (mapping : gmap string (gmap Z string)) : Prop :=
  map_Forall (λ qid1 cols1,
    map_Forall (λ qid2 cols2,
      qid1 = qid2
      ∨ map_Forall (λ year column, cols2 !! year ≠ Some column) cols1)
    mapping) mapping.

(** * Properties *)

(** ** The list primitives *)

Section list_primitives.
Implicit Types (x : string) (l : list string) (i : nat).

Lemma list_contains_true x l : list_contains x l = true ↔ x ∈ l.
Proof.
  induction l as [|y l IH]; simpl.
  - split; [discriminate | by intros ?%elem_of_nil].
  - rewrite elem_of_cons, <-IH. case_decide; [| split]; intuition congruence.
Qed.

Lemma list_contains_false x l : list_contains x l = false ↔ x ∉ l.
Proof.
  rewrite <-list_contains_true. by destruct (list_contains x l).
Qed.

Lemma position_of_head x l : position_of x (x :: l) 0.
Proof. split; [done | lia]. Qed.

Lemma position_of_tail x y l i :
  y ≠ x → position_of x l i → position_of x (y :: l) (S i).
Proof.
  intros Hne [Hi Hfirst]. split; [done |].
  intros [|j] Hj; simpl; [congruence | apply Hfirst; lia].
Qed.

Lemma position_of_unique x l i j :
  position_of x l i → position_of x l j → i = j.
Proof.
  intros [Hi Hfi] [Hj Hfj].
  destruct (Nat.lt_trichotomy i j) as [Hlt | [-> | Hlt]]; [| done |].
  - by destruct (Hfj i Hlt).
  - by destruct (Hfi j Hlt).
Qed.

Lemma position_of_lt x l i : position_of x l i → (i < length l)%nat.
Proof. intros [Hi _]. by eapply lookup_lt_Some. Qed.

(** [l.index(x)] returns exactly the position of [x]. *)
Lemma list_index_Return x l i :
  list_index x l = Return i ↔ position_of x l i.
Proof.
  revert i. induction l as [|y l IH]; intros i; simpl.
  - split; [discriminate | by intros [? _]].
  - case_decide as Hy; subst.
    + split.
      * intros [= <-]. apply position_of_head.
      * intros Hpos. f_equal.
        eapply position_of_unique; [apply position_of_head | done].
    + destruct (list_index x l) as [k|e] eqn:Hk; simpl.
      * split.
        -- intros [= <-]. apply position_of_tail; [done | by apply IH].
        -- intros Hpos. f_equal. eapply position_of_unique; [| done].
           apply position_of_tail; [done | by apply IH].
      * split; [discriminate |].
        intros [Hi Hfirst]. destruct i as [|i]; simpl in *; [congruence |].
        assert (Raise e = Return i) as Habs; [| discriminate].
        apply IH. split; [done |].
        intros j Hj. apply (Hfirst (S j)). lia.
Qed.

(** [l.index(x)] raises only [ValueError], and only when [x] is absent. *)
Lemma list_index_Raise x l e :
  list_index x l = Raise e → e = ValueError ∧ x ∉ l.
Proof.
  induction l as [|y l IH]; simpl.
  - intros [= <-]. split; [done | apply not_elem_of_nil].
  - case_decide; [discriminate |].
    destruct (list_index x l); simpl; [discriminate |].
    intros [= <-]. destruct IH as [-> ?]; [done |].
    split; [done |]. rewrite not_elem_of_cons. naive_solver.
Qed.

(** Under the guard [x in l], [l.index(x)] returns. *)
Lemma list_index_total x l :
  x ∈ l → ∃ i, list_index x l = Return i.
Proof.
  intros Hin. destruct (list_index x l) as [i|e] eqn:Hi; [by exists i |].
  by apply list_index_Raise in Hi as [_ ?].
Qed.

Lemma list_getitem_Return l i s :
  list_getitem l i = Return s ↔ l !! i = Some s.
Proof. unfold list_getitem. destruct (l !! i); naive_solver. Qed.

(** Under the guard [i < len(l)], [l[i]] returns. *)
Lemma list_getitem_total l i :
  (i < length l)%nat → ∃ s, list_getitem l i = Return s.
Proof.
  intros [s Hs]%lookup_lt_is_Some_2. exists s. by apply list_getitem_Return.
Qed.

End list_primitives.

(** ** [harmonize_response_scale] *)

Section harmonize.
Implicit Types (response : string) (source_scale target_scale : list string).

Lemma harmonize_not_member response source_scale target_scale :
  response ∉ source_scale →
  harmonize_response_scale response source_scale target_scale
  = Return response.
Proof.
  intros Hnin%list_contains_false. unfold harmonize_response_scale.
  by rewrite Hnin.
Qed.

Lemma harmonize_position response source_scale target_scale i :
  position_of response source_scale i →
  harmonize_response_scale response source_scale target_scale
  = if decide (i < length target_scale)%nat
    then list_getitem target_scale i
    else Return response.
Proof.
  intros Hpos. unfold harmonize_response_scale.
  assert (list_contains response source_scale = true) as ->.
  { apply list_contains_true. destruct Hpos as [Hi _].
    by eapply list_elem_of_lookup_2. }
  apply list_index_Return in Hpos as ->. done.
Qed.

Lemma harmonize_total response source_scale target_scale :
  ∃ s, harmonize_response_scale response source_scale target_scale = Return s.
Proof.
  destruct (decide (response ∈ source_scale)) as [Hin | Hnin].
  - destruct (list_index_total _ _ Hin) as [i Hi].
    apply list_index_Return in Hi.
    rewrite (harmonize_position _ _ _ _ Hi).
    case_decide; [by apply list_getitem_total | by eexists].
  - exists response. by apply harmonize_not_member.
Qed.

End harmonize.

(** ** The queries, for an arbitrary schema *)

Section queries.
Variable self : UnifiedSchema.
Implicit Types (qid : string) (q : QuestionMapping) (year min_years : Z).

(** The merge of [get_all_questions]: a later category shadows an earlier
    one on a shared key. *)
Lemma get_all_questions_unfold :
  get_all_questions self
  = historical_questions self ∪ (supplementary_questions self
      ∪ (demographic_questions self ∪ core_questions self)).
Proof.
  unfold get_all_questions, dict_update. by rewrite (right_id_L ∅ (∪)).
Qed.

Lemma get_questions_by_year_lookup year qid q :
  get_questions_by_year self year !! qid = Some q
  ↔ get_all_questions self !! qid = Some q ∧ year ∈ years_available q.
Proof. unfold get_questions_by_year. by rewrite map_lookup_filter_Some. Qed.

Lemma get_longitudinal_questions_lookup min_years qid q :
  get_longitudinal_questions self min_years !! qid = Some q
  ↔ get_all_questions self !! qid = Some q
    ∧ min_years ≤ Z.of_nat (length (years_available q)).
Proof.
  unfold get_longitudinal_questions. rewrite map_lookup_filter_Some. simpl.
  split; intros [? ?]; (split; [done | lia]).
Qed.

Lemma get_core_trend_questions_lookup qid q :
  get_core_trend_questions self !! qid = Some q
  ↔ core_questions self !! qid = Some q
    ∧ (3 ≤ length (years_available q))%nat.
Proof.
  unfold get_core_trend_questions. rewrite map_lookup_filter_Some. simpl.
  split; intros [? ?]; (split; [done | lia]).
Qed.

Lemma span_le_max_span (d : gmap string QuestionMapping) qid q :
  d !! qid = Some q → (span q ≤ max_span d)%nat.
Proof.
  intros Hq. unfold max_span. apply max_list_elem_of_le.
  apply list_elem_of_fmap. exists q. split; [done |].
  apply list_elem_of_fmap. exists (qid, q). split; [done |].
  by apply elem_of_map_to_list.
Qed.

(** When the categories share no key the merge loses nothing. *)
Lemma get_all_questions_lookup qid q :
  categories_disjoint self →
  get_all_questions self !! qid = Some q
  ↔ ∃ d, d ∈ categories self ∧ d !! qid = Some q.
Proof.
  intros (Hcd & Hcs & Hch & Hds & Hdh & Hsh).
  rewrite get_all_questions_unfold. unfold categories.
  rewrite !lookup_union_Some.
  - split.
    + intros [? | [? | [? | ?]]]; eexists; (split; [| done]);
        repeat constructor.
    + intros (d & Hd & Hq).
      rewrite !elem_of_cons, elem_of_nil in Hd.
      destruct Hd as [-> | [-> | [-> | [-> | []]]]]; auto.
  - by symmetry.
  - apply map_disjoint_union_r_2; by symmetry.
  - repeat apply map_disjoint_union_r_2; by symmetry.
Qed.

Lemma get_all_questions_size :
  categories_disjoint self →
  size (get_all_questions self)
  = (size (core_questions self) + size (demographic_questions self)
     + size (supplementary_questions self)
     + size (historical_questions self))%nat.
Proof.
  intros (Hcd & Hcs & Hch & Hds & Hdh & Hsh).
  rewrite get_all_questions_unfold.
  rewrite !map_size_disj_union; [lia | ..].
  - by symmetry.
  - apply map_disjoint_union_r_2; by symmetry.
  - repeat apply map_disjoint_union_r_2; by symmetry.
Qed.

(** Each query result is a part of the dictionary it filters. *)
Lemma exposed_subseteq d :
  categories_disjoint self →
  exposed self d → d ⊆ get_all_questions self.
Proof.
  intros Hdisj Hd. apply map_subseteq_spec. intros qid q Hq.
  destruct Hd as [d Hd | | year | min_years |].
  - apply get_all_questions_lookup; eauto.
  - done.
  - by apply get_questions_by_year_lookup in Hq as [? _].
  - by apply get_longitudinal_questions_lookup in Hq as [? _].
  - apply get_core_trend_questions_lookup in Hq as [? _].
    apply get_all_questions_lookup; [done |].
    exists (core_questions self). split; [constructor | done].
Qed.

End queries.

(** The loop of [create_harmonized_column_mapping] projects every value of
    the dictionary it iterates. *)
Lemma map_fold_insert_project {A B : Type} (f : A → B) (d : gmap string A) :
  map_fold (λ k v acc, <[k := f v]> acc) ∅ d = f <$> d.
Proof.
  apply (map_fold_weak_ind (λ acc d, acc = f <$> d)).
  - by rewrite fmap_empty.
  - intros k v m acc _ ->. by rewrite fmap_insert.
Qed.

Lemma create_harmonized_column_mapping_fmap :
  create_harmonized_column_mapping
  = column_mappings <$> get_all_questions __init__.
Proof. apply map_fold_insert_project. Qed.

(** ** The catalogue built by the constructor *)

Lemma init_categories_disjoint : categories_disjoint __init__.
Proof.
  unfold categories_disjoint. rewrite !map_disjoint_dom. simpl.
  repeat split; compute_done.
Qed.

Lemma init_all_keyed_by_id : keyed_by_id (get_all_questions __init__).
Proof. unfold keyed_by_id. compute_done. Qed.

Lemma init_all_columns_match_years :
  columns_match_years (get_all_questions __init__).
Proof. unfold columns_match_years. compute_done. Qed.

Lemma init_years_NoDup :
  map_Forall (λ _ q, NoDup (years_available q)) (get_all_questions __init__).
Proof. compute_done. Qed.

Lemma init_max_span : max_span (get_all_questions __init__) = 5%nat.
Proof. reflexivity. Qed.

Lemma init_exposed_lookup d qid q :
  exposed __init__ d → d !! qid = Some q →
  get_all_questions __init__ !! qid = Some q.
Proof.
  intros Hd Hq. eapply lookup_weaken; [done |].
  apply exposed_subseteq; [apply init_categories_disjoint | done].
Qed.

(** ** The claims *)

(** C1: [harmonize_response_scale] returns the response unchanged when it
    is not a member of the source scale, and when its position in the
    source scale is at or beyond the length of the target scale; so
    ["Strongly agree"] on the 5-item agreement scale is returned unchanged
    for the 4-item frequency scale. *)
Theorem harmonize_response_scale_passthrough :
  (∀ response source_scale target_scale,
     response ∉ source_scale →
     harmonize_response_scale response source_scale target_scale
     = Return response)
  ∧ (∀ response source_scale target_scale i,
       position_of response source_scale i →
       (length target_scale ≤ i)%nat →
       harmonize_response_scale response source_scale target_scale
       = Return response)
  ∧ harmonize_response_scale
      "Strongly agree" (value AGREEMENT_5) (value FREQUENCY_4)
    = Return "Strongly agree".
Proof.
  split; [| split].
  - apply harmonize_not_member.
  - intros response source_scale target_scale i Hpos Hlen.
    rewrite (harmonize_position _ _ _ _ Hpos).
    case_decide; [lia | done].
  - reflexivity.
Qed.

Lemma harmonize_response_scale_passthrough_witness :
  ("Unknown" ∉ value AGREEMENT_5)
  ∧ harmonize_response_scale "Unknown" (value AGREEMENT_5) (value FREQUENCY_4)
    = Return "Unknown"
  ∧ position_of "Strongly agree" (value AGREEMENT_5) 4
  ∧ (length (value FREQUENCY_4) ≤ 4)%nat
  ∧ harmonize_response_scale
      "Strongly agree" (value AGREEMENT_5) (value FREQUENCY_4)
    = Return "Strongly agree".
Proof.
  assert ("Unknown" ∉ value AGREEMENT_5) as Hnin.
  { apply list_contains_false. reflexivity. }
  assert (position_of "Strongly agree" (value AGREEMENT_5) 4) as Hpos.
  { apply list_index_Return. reflexivity. }
  assert (length (value FREQUENCY_4) ≤ 4)%nat as Hlen.
  { simpl. lia. }
  refine (conj Hnin (conj _ (conj Hpos (conj Hlen _)))).
  - exact (proj1 harmonize_response_scale_passthrough _ _ _ Hnin).
  - exact (proj1 (proj2 harmonize_response_scale_passthrough) _ _ _ _ Hpos Hlen).
Defined.

(** C5: when the response is a member of the source scale and its position
    [i] (index of the first occurrence) is below the length of the target
    scale, [harmonize_response_scale] returns the element of the target
    scale at position [i]. *)
Theorem harmonize_response_scale_same_position
    (response : string) (source_scale target_scale : list string) (i : nat) :
  position_of response source_scale i →
  (i < length target_scale)%nat →
  ∃ t, target_scale !! i = Some t
       ∧ harmonize_response_scale response source_scale target_scale
         = Return t.
Proof.
  intros Hpos Hlt. rewrite (harmonize_position _ _ _ _ Hpos).
  rewrite decide_True by done.
  destruct (list_getitem_total _ _ Hlt) as [t Ht]. exists t.
  split; [by apply list_getitem_Return | done].
Qed.

Lemma harmonize_response_scale_same_position_witness :
  position_of "Neutral" (value AGREEMENT_5) 2
  ∧ (2 < length (value FREQUENCY_4))%nat
  ∧ ∃ t, value FREQUENCY_4 !! 2%nat = Some t
         ∧ harmonize_response_scale
             "Neutral" (value AGREEMENT_5) (value FREQUENCY_4)
           = Return t.
Proof.
  assert (position_of "Neutral" (value AGREEMENT_5) 2) as Hpos.
  { apply list_index_Return. reflexivity. }
  assert (2 < length (value FREQUENCY_4))%nat as Hlt.
  { simpl. lia. }
  split; [done | split; [done |]].
  exact (harmonize_response_scale_same_position _ _ _ _ Hpos Hlt).
Defined.

(** C2: [get_core_trend_questions] returns exactly the core questions that
    span three or more years (for the core questions the length of
    [years_available] is its cardinality); a question of another category
    is neither a key nor a value of the result, even with three or more
    years, as the demographic question [job_title] shows. *)
Theorem get_core_trend_questions_core_only :
  (∀ qid q,
     get_core_trend_questions __init__ !! qid = Some q
     ↔ core_questions __init__ !! qid = Some q
       ∧ (3 ≤ length (years_available q))%nat)
  ∧ (∀ qid q,
       core_questions __init__ !! qid = Some q →
       length (years_available q)
       = size (list_to_set (years_available q) : gset Z))
  ∧ (∀ d qid q,
       d ∈ [demographic_questions __init__;
            supplementary_questions __init__;
            historical_questions __init__] →
       d !! qid = Some q →
       get_core_trend_questions __init__ !! qid = None
       ∧ ∀ k, get_core_trend_questions __init__ !! k ≠ Some q)
  ∧ (∃ q, demographic_questions __init__ !! "job_title" = Some q
          ∧ (3 ≤ length (years_available q))%nat
          ∧ get_core_trend_questions __init__ !! "job_title" = None).
Proof.
  split; [| split; [| split]].
  - intros qid q. apply get_core_trend_questions_lookup.
  - intros qid q Hq. symmetry. apply size_list_to_set.
    apply (init_years_NoDup qid).
    apply (init_exposed_lookup (core_questions __init__)); [| done].
    apply exposed_category. constructor.
  - intros d qid q Hd Hq.
    assert (core_questions __init__ !! qid = None) as Hcore.
    { destruct init_categories_disjoint as (Hcd & Hcs & Hch & _).
      rewrite !elem_of_cons, elem_of_nil in Hd.
      destruct Hd as [-> | [-> | [-> | []]]];
        eauto using map_disjoint_Some_r. }
    assert (qid = question_id q) as Hid.
    { apply (init_all_keyed_by_id qid q).
      apply (init_exposed_lookup d); [| done].
      apply exposed_category. unfold categories.
      rewrite elem_of_cons. by right. }
    split.
    + destruct (get_core_trend_questions __init__ !! qid) as [q'|] eqn:Hq';
        [| done].
      apply get_core_trend_questions_lookup in Hq' as [Hq' _]. congruence.
    + intros k [Hk _]%get_core_trend_questions_lookup.
      assert (k = question_id q) as Hkid; [| congruence].
      apply (init_all_keyed_by_id k q).
      apply (init_exposed_lookup (core_questions __init__)); [| done].
      apply exposed_category. constructor.
  - eexists. split; [reflexivity |]. split; [simpl; lia | reflexivity].
Qed.

Lemma get_core_trend_questions_core_only_witness :
  (∃ q, demographic_questions __init__ !! "research_area" = Some q
        ∧ get_core_trend_questions __init__ !! "research_area" = None
        ∧ ∀ k, get_core_trend_questions __init__ !! k ≠ Some q)
  ∧ ∃ q, core_questions __init__ !! "preprinting_attitude" = Some q
         ∧ length (years_available q)
           = size (list_to_set (years_available q) : gset Z).
Proof.
  split.
  - eexists. split; [reflexivity |].
    refine (proj1 (proj2 (proj2 get_core_trend_questions_core_only))
              (demographic_questions __init__) "research_area" _ _ _).
    + constructor.
    + reflexivity.
  - eexists. split; [reflexivity |].
    refine (proj1 (proj2 get_core_trend_questions_core_only)
              "preprinting_attitude" _ _).
    reflexivity.
Defined.

(** C3: for every integer [k], [get_longitudinal_questions k] is exactly
    the part of [get_all_questions] whose [years_available] has length at
    least [k]; for [k <= 0] it is the whole catalogue, and for [k] above
    the largest span it is empty. *)
Theorem get_longitudinal_questions_exact (self : UnifiedSchema) (k : Z) :
  (∀ qid q,
     get_longitudinal_questions self k !! qid = Some q
     ↔ get_all_questions self !! qid = Some q
       ∧ k ≤ Z.of_nat (length (years_available q)))
  ∧ (k ≤ 0 → get_longitudinal_questions self k = get_all_questions self)
  ∧ (Z.of_nat (max_span (get_all_questions self)) < k →
     get_longitudinal_questions self k = ∅).
Proof.
  split; [| split].
  - intros qid q. apply get_longitudinal_questions_lookup.
  - intros Hk. apply map_filter_id. intros qid q _. simpl. lia.
  - intros Hk. apply map_empty_filter. intros qid q Hq. simpl.
    pose proof (span_le_max_span _ _ _ Hq) as Hle. unfold span in Hle. lia.
Qed.

Lemma get_longitudinal_questions_exact_witness :
  (-1 ≤ 0
   ∧ get_longitudinal_questions __init__ (-1) = get_all_questions __init__)
  ∧ (Z.of_nat (max_span (get_all_questions __init__)) < 6
     ∧ get_longitudinal_questions __init__ 6 = ∅).
Proof.
  split; split.
  - lia.
  - apply (proj1 (proj2 (get_longitudinal_questions_exact __init__ (-1)))). lia.
  - vm_compute. reflexivity.
  - apply (proj2 (proj2 (get_longitudinal_questions_exact __init__ 6))).
    vm_compute. reflexivity.
Defined.

(** C4: for every integer year [y], [get_questions_by_year y] is exactly
    the part of [get_all_questions] whose [years_available] contains [y];
    when no question has the year the result is the empty dictionary, as
    for 2020 on the constructed catalogue. *)
Theorem get_questions_by_year_exact :
  (∀ self y qid q,
     get_questions_by_year self y !! qid = Some q
     ↔ get_all_questions self !! qid = Some q ∧ y ∈ years_available q)
  ∧ (∀ self y,
       map_Forall (λ _ q, y ∉ years_available q) (get_all_questions self) →
       get_questions_by_year self y = ∅)
  ∧ get_questions_by_year __init__ 2020 = ∅.
Proof.
  split; [| split].
  - intros self y qid q. apply get_questions_by_year_lookup.
  - intros self y Hno. by apply map_empty_filter.
  - reflexivity.
Qed.

Lemma get_questions_by_year_exact_witness :
  map_Forall (λ _ q, 2018 ∉ years_available q) (get_all_questions __init__)
  ∧ get_questions_by_year __init__ 2018 = ∅.
Proof.
  assert (map_Forall (λ _ q, 2018 ∉ years_available q)
            (get_all_questions __init__)) as Hno.
  { compute_done. }
  split; [done |].
  exact (proj1 (proj2 get_questions_by_year_exact) __init__ 2018 Hno).
Defined.

(** C6: [create_harmonized_column_mapping] has exactly the keys of the
    full catalogue, which are the [question_id]s of its questions, and maps
    the [question_id] of every question to its [column_mappings]; its entry
    for ["open_access_attitude"] is the dictionary
    [{2021: "Q2.7_1", 2022: "Q2.11_1", 2023: "Q2.10.a", 2024: "Q12_1"}]. *)
Theorem create_harmonized_column_mapping_projection :
  dom create_harmonized_column_mapping = dom (get_all_questions __init__)
  ∧ dom create_harmonized_column_mapping
    = question_ids (get_all_questions __init__)
  ∧ (∀ qid q,
       get_all_questions __init__ !! qid = Some q →
       create_harmonized_column_mapping !! question_id q
       = Some (column_mappings q))
  ∧ create_harmonized_column_mapping !! "open_access_attitude"
    = Some (dict_literal [(2021, "Q2.7_1"); (2022, "Q2.11_1");
                          (2023, "Q2.10.a"); (2024, "Q12_1")]).
Proof.
  rewrite create_harmonized_column_mapping_fmap, dom_fmap_L.
  split; [done |]. split; [| split].
  - apply set_eq. intros qid. unfold question_ids.
    rewrite elem_of_dom, elem_of_list_to_set, list_elem_of_fmap.
    split.
    + intros [q Hq]. exists q. split; [by apply init_all_keyed_by_id in Hq |].
      apply list_elem_of_fmap. exists (qid, q).
      split; [done | by apply elem_of_map_to_list].
    + intros (q & -> & [[k q'] [-> Hq]]%list_elem_of_fmap).
      apply elem_of_map_to_list in Hq. simpl. exists q'.
      by rewrite <-(init_all_keyed_by_id _ _ Hq).
  - intros qid q Hq. rewrite lookup_fmap.
    rewrite <-(init_all_keyed_by_id _ _ Hq). by rewrite Hq.
  - reflexivity.
Qed.

Lemma create_harmonized_column_mapping_projection_witness :
  ∃ q, get_all_questions __init__ !! "job_title" = Some q
       ∧ create_harmonized_column_mapping !! question_id q
         = Some (column_mappings q).
Proof.
  eexists. split; [reflexivity |].
  refine (proj1 (proj2 (proj2 create_harmonized_column_mapping_projection))
            "job_title" _ _).
  reflexivity.
Defined.

(** C7: for every question of the catalogue built by the constructor (of
    each category, of their union and of every query result) the key set of
    [column_mappings] is the set of the years in [years_available]. *)
Theorem column_mappings_keys_are_years_available
    (d : gmap string QuestionMapping) (qid : string) (q : QuestionMapping) :
  exposed __init__ d →
  d !! qid = Some q →
  dom (column_mappings q) = list_to_set (years_available q).
Proof.
  intros Hd Hq. apply (init_all_columns_match_years qid).
  by apply (init_exposed_lookup d).
Qed.

Lemma column_mappings_keys_are_years_available_witness :
  ∃ q, exposed __init__ (get_all_questions __init__)
       ∧ get_all_questions __init__ !! "credit_for_sharing" = Some q
       ∧ dom (column_mappings q) = list_to_set (years_available q).
Proof.
  eexists. split; [apply exposed_all |]. split; [reflexivity |].
  refine (column_mappings_keys_are_years_available
            (get_all_questions __init__) "credit_for_sharing" _ _ _).
  - apply exposed_all.
  - reflexivity.
Defined.

(** C8: the [question_id]s are unique over the four categories taken
    together: no key belongs to two categories and no [question_id] occurs
    twice among their values; so the merge of [get_all_questions] keeps
    every entry of every category and its size is the sum of the four
    sizes. *)
Theorem question_id_unique_across_categories :
  categories_disjoint __init__
  ∧ NoDup (question_id <$> (categories __init__ ≫= map_to_list).*2)
  ∧ Forall (λ d, d ⊆ get_all_questions __init__) (categories __init__)
  ∧ size (get_all_questions __init__)
    = (size (core_questions __init__)
       + size (demographic_questions __init__)
       + size (supplementary_questions __init__)
       + size (historical_questions __init__))%nat.
Proof.
  split; [apply init_categories_disjoint |]. split; [compute_done |]. split.
  - apply Forall_forall. intros d Hd. apply exposed_subseteq.
    + apply init_categories_disjoint.
    + by apply exposed_category.
  - apply get_all_questions_size, init_categories_disjoint.
Qed.

(** C9: every public operation returns a value on every input of its
    type, for any schema; the list primitives inside
    [harmonize_response_scale] never raise, the index passed to the target
    scale being checked against its length. *)
Theorem public_operations_total :
  (∀ self c, ∃ v, run self c = Return v)
  ∧ (∀ response source_scale target_scale e,
       harmonize_response_scale response source_scale target_scale
       ≠ Raise e)
  ∧ get_questions_by_year __init__ 1900 = ∅
  ∧ get_longitudinal_questions __init__ 100 = ∅.
Proof.
  split; [| split; [| split]].
  - intros self [| year | min_years | | response source_scale target_scale |];
      simpl; try by eexists.
    destruct (harmonize_total response source_scale target_scale) as [s ->].
    by eexists.
  - intros response source_scale target_scale e.
    by destruct (harmonize_total response source_scale target_scale) as [s ->].
  - reflexivity.
  - reflexivity.
Qed.

(** C10: in each of the four category dictionaries, in their union and in
    every query result, the key of an entry is the [question_id] of its
    value. *)
Theorem dictionary_key_is_question_id
    (d : gmap string QuestionMapping) (qid : string) (q : QuestionMapping) :
  exposed __init__ d →
  d !! qid = Some q →
  qid = question_id q.
Proof.
  intros Hd Hq. apply (init_all_keyed_by_id qid).
  by apply (init_exposed_lookup d).
Qed.

Lemma dictionary_key_is_question_id_witness :
  ∃ q, exposed __init__ (get_questions_by_year __init__ 2019)
       ∧ get_questions_by_year __init__ 2019 !! "funder_mandate_support"
         = Some q
       ∧ "funder_mandate_support" = question_id q.
Proof.
  eexists. split; [apply exposed_by_year |]. split; [reflexivity |].
  refine (dictionary_key_is_question_id
            (get_questions_by_year __init__ 2019) "funder_mandate_support"
            _ _ _).
  - apply exposed_by_year.
  - reflexivity.
Defined.

(** ** The sample run of the module

    The figures the [__main__] block prints, and a few more evaluations of
    the embedding. *)

Example core_trend_questions_ids :
  dom (get_core_trend_questions __init__)
  = {["open_access_attitude"; "open_data_attitude";
      "open_peer_review_attitude"; "preprinting_attitude"]}.
Proof. compute_done. Qed.

Example questions_2024_count :
  size (get_questions_by_year __init__ 2024) = 8%nat.
Proof. reflexivity. Qed.

Example longitudinal_default_count :
  size (get_longitudinal_questions __init__ min_years_default) = 10%nat.
Proof. reflexivity. Qed.

Example longitudinal_one_is_everything :
  get_longitudinal_questions __init__ 1 = get_all_questions __init__.
Proof. compute_done. Qed.

Example all_questions_count : size (get_all_questions __init__) = 18%nat.
Proof. reflexivity. Qed.

Example harmonize_aligned :
  harmonize_response_scale
    "Somewhat agree" (value AGREEMENT_5) (value AGREEMENT_5_ALT)
  = Return "Somewhat agree"
  ∧ harmonize_response_scale
      "Neutral" (value AGREEMENT_5) (value AGREEMENT_5_ALT)
    = Return "Neutral / No opinion"
  ∧ harmonize_response_scale
      "Rarely" (value FREQUENCY_4) (value FREQUENCY_4_ALT)
    = Return "Rarely".
Proof. repeat split. Qed.

(** With a repeated label in the source scale the first occurrence decides. *)
Example harmonize_first_occurrence :
  harmonize_response_scale "Yes" ["Yes"; "No"; "Yes"] ["a"; "b"; "c"]
  = Return "a".
Proof. reflexivity. Qed.

(** * Further properties of the module *)

(** ** More on [harmonize_response_scale] *)

Section harmonize_more.
Implicit Types (response : string) (source_scale target_scale : list string).

(** Every member of a list has a position. *)
Lemma position_of_member response source_scale :
  response ∈ source_scale → ∃ i, position_of response source_scale i.
Proof.
  intros [i Hi]%list_index_total. exists i. by apply list_index_Return.
Qed.

(** In a list without repetition every index is the position of its
    element. *)
Lemma position_of_NoDup response target_scale i :
  NoDup target_scale →
  target_scale !! i = Some response →
  position_of response target_scale i.
Proof.
  intros Hnd Hi. split; [done |].
  intros j Hj Hjr. pose proof (NoDup_lookup _ _ _ _ Hnd Hi Hjr). lia.
Qed.

(** The translated label and the way back, for a target scale without
    repeated labels. *)
Lemma harmonize_there_and_back response source_scale target_scale i :
  NoDup target_scale →
  position_of response source_scale i →
  (i < length target_scale)%nat →
  ∃ t, target_scale !! i = Some t
       ∧ harmonize_response_scale response source_scale target_scale
         = Return t
       ∧ harmonize_response_scale t target_scale source_scale
         = Return response.
Proof.
  intros Hnd Hpos Hlt.
  destruct (lookup_lt_is_Some_2 _ _ Hlt) as [t Ht]. exists t.
  split; [done |]. split.
  - rewrite (harmonize_position _ _ _ _ Hpos), decide_True by done.
    by apply list_getitem_Return.
  - rewrite (harmonize_position _ _ _ _ (position_of_NoDup _ _ _ Hnd Ht)).
    rewrite decide_True by (by eapply position_of_lt).
    apply list_getitem_Return. by destruct Hpos.
Qed.

End harmonize_more.

(** X1: harmonizing a scale onto itself changes nothing, whatever the
    response and the scale (members and non-members, repeated labels
    included). *)
Theorem harmonize_response_scale_same_scale
    (response : string) (scale : list string) :
  harmonize_response_scale response scale scale = Return response.
Proof.
  destruct (decide (response ∈ scale)) as [Hin | Hnin].
  - destruct (position_of_member _ _ Hin) as [i Hpos].
    rewrite (harmonize_position _ _ _ _ Hpos).
    rewrite decide_True by (by eapply position_of_lt).
    apply list_getitem_Return. by destruct Hpos.
  - by apply harmonize_not_member.
Qed.

(** X2: the label returned is the response itself or a label of the target
    scale; the function never produces a label from elsewhere. *)
Theorem harmonize_response_scale_result
    (response : string) (source_scale target_scale : list string)
    (t : string) :
  harmonize_response_scale response source_scale target_scale = Return t →
  t = response ∨ t ∈ target_scale.
Proof.
  destruct (decide (response ∈ source_scale)) as [Hin | Hnin].
  - destruct (position_of_member _ _ Hin) as [i Hpos].
    rewrite (harmonize_position _ _ _ _ Hpos).
    case_decide.
    + intros Ht%list_getitem_Return. right. by eapply list_elem_of_lookup_2.
    + intros [= <-]. by left.
  - rewrite harmonize_not_member by done. intros [= <-]. by left.
Qed.

Lemma harmonize_response_scale_result_witness :
  harmonize_response_scale "Rarely" (value FREQUENCY_4) (value AGREEMENT_5)
  = Return "Somewhat disagree"
  ∧ ("Somewhat disagree" = "Rarely" ∨ "Somewhat disagree" ∈ value AGREEMENT_5).
Proof.
  assert (harmonize_response_scale
            "Rarely" (value FREQUENCY_4) (value AGREEMENT_5)
          = Return "Somewhat disagree") as Hrun by reflexivity.
  split; [done |].
  exact (harmonize_response_scale_result _ _ _ _ Hrun).
Defined.

(** X3: when the target scale is at least as long as the source scale,
    every member of the source scale is translated to the target label at
    its position: no member falls through. *)
Theorem harmonize_response_scale_covers
    (response : string) (source_scale target_scale : list string) :
  response ∈ source_scale →
  (length source_scale ≤ length target_scale)%nat →
  ∃ i t, position_of response source_scale i
         ∧ target_scale !! i = Some t
         ∧ harmonize_response_scale response source_scale target_scale
           = Return t.
Proof.
  intros Hin Hlen. destruct (position_of_member _ _ Hin) as [i Hpos].
  pose proof (position_of_lt _ _ _ Hpos) as Hi.
  assert (i < length target_scale)%nat as Hlt by lia.
  destruct (lookup_lt_is_Some_2 _ _ Hlt) as [t Ht]. exists i, t.
  split; [done |]. split; [done |].
  rewrite (harmonize_position _ _ _ _ Hpos), decide_True by done.
  by apply list_getitem_Return.
Qed.

Lemma harmonize_response_scale_covers_witness :
  ("Frequently" ∈ value FREQUENCY_4)
  ∧ (length (value FREQUENCY_4) ≤ length (value AGREEMENT_5))%nat
  ∧ ∃ i t, position_of "Frequently" (value FREQUENCY_4) i
           ∧ value AGREEMENT_5 !! i = Some t
           ∧ harmonize_response_scale
               "Frequently" (value FREQUENCY_4) (value AGREEMENT_5)
             = Return t.
Proof.
  assert ("Frequently" ∈ value FREQUENCY_4) as Hin.
  { apply list_contains_true. reflexivity. }
  assert (length (value FREQUENCY_4) ≤ length (value AGREEMENT_5))%nat
    as Hlen.
  { simpl. lia. }
  split; [done |]. split; [done |].
  exact (harmonize_response_scale_covers _ _ _ Hin Hlen).
Defined.

(** X4: round trip.  When the target scale has no repeated label and the
    position of the response in the source scale exists in the target
    scale, harmonizing to the target and back to the source gives the
    response again. *)
Theorem harmonize_response_scale_round_trip
    (response : string) (source_scale target_scale : list string) (i : nat) :
  NoDup target_scale →
  position_of response source_scale i →
  (i < length target_scale)%nat →
  ∃ t, harmonize_response_scale response source_scale target_scale
       = Return t
       ∧ harmonize_response_scale t target_scale source_scale
         = Return response.
Proof.
  intros Hnd Hpos Hlt.
  destruct (harmonize_there_and_back _ _ _ _ Hnd Hpos Hlt)
    as (t & _ & Hthere & Hback).
  by exists t.
Qed.

Lemma harmonize_response_scale_round_trip_witness :
  NoDup (value FREQUENCY_4_ALT)
  ∧ position_of "Sometimes" (value FREQUENCY_4) 2
  ∧ (2 < length (value FREQUENCY_4_ALT))%nat
  ∧ ∃ t, harmonize_response_scale
           "Sometimes" (value FREQUENCY_4) (value FREQUENCY_4_ALT)
         = Return t
         ∧ harmonize_response_scale
             t (value FREQUENCY_4_ALT) (value FREQUENCY_4)
           = Return "Sometimes".
Proof.
  assert (NoDup (value FREQUENCY_4_ALT)) as Hnd.
  { apply (bool_decide_unpack _). vm_compute. exact I. }
  assert (position_of "Sometimes" (value FREQUENCY_4) 2) as Hpos.
  { apply list_index_Return. reflexivity. }
  assert (2 < length (value FREQUENCY_4_ALT))%nat as Hlt.
  { simpl. lia. }
  split; [done |]. split; [done |]. split; [done |].
  exact (harmonize_response_scale_round_trip _ _ _ _ Hnd Hpos Hlt).
Defined.

(** X5: without the condition on the target scale the round trip can
    fail: with a repeated target label the way back stops at its first
    occurrence. *)
Theorem harmonize_response_scale_round_trip_needs_NoDup :
  ∃ response source_scale target_scale t,
    response ∈ source_scale
    ∧ length source_scale = length target_scale
    ∧ harmonize_response_scale response source_scale target_scale
      = Return t
    ∧ harmonize_response_scale t target_scale source_scale
      ≠ Return response.
Proof.
  exists "No", ["Yes"; "No"], ["Agree"; "Agree"], "Agree".
  split; [| split; [| split]].
  - apply list_contains_true. reflexivity.
  - reflexivity.
  - reflexivity.
  - discriminate.
Qed.

(** X6: with an empty source scale or an empty target scale the response
    is returned unchanged. *)
Theorem harmonize_response_scale_empty_scale
    (response : string) (scale : list string) :
  harmonize_response_scale response [] scale = Return response
  ∧ harmonize_response_scale response scale [] = Return response.
Proof.
  split; [reflexivity |].
  destruct (decide (response ∈ scale)) as [Hin | Hnin].
  - destruct (position_of_member _ _ Hin) as [i Hpos].
    rewrite (harmonize_position _ _ _ _ Hpos).
    rewrite decide_False; [done | simpl; lia].
  - by apply harmonize_not_member.
Qed.

(** X7: on a target scale without repeated labels, two responses whose
    positions exist in the target scale and that are translated to the
    same label are the same response. *)
Theorem harmonize_response_scale_injective
    (response1 response2 : string) (source_scale target_scale : list string)
    (i1 i2 : nat) :
  NoDup target_scale →
  position_of response1 source_scale i1 →
  position_of response2 source_scale i2 →
  (i1 < length target_scale)%nat →
  (i2 < length target_scale)%nat →
  harmonize_response_scale response1 source_scale target_scale
  = harmonize_response_scale response2 source_scale target_scale →
  response1 = response2.
Proof.
  intros Hnd Hpos1 Hpos2 Hlt1 Hlt2 Heq.
  destruct (harmonize_there_and_back _ _ _ _ Hnd Hpos1 Hlt1)
    as (t1 & Ht1 & Hthere1 & _).
  destruct (harmonize_there_and_back _ _ _ _ Hnd Hpos2 Hlt2)
    as (t2 & Ht2 & Hthere2 & _).
  assert (t1 = t2) as -> by congruence.
  assert (i1 = i2) as -> by (by eapply NoDup_lookup).
  destruct Hpos1 as [H1 _], Hpos2 as [H2 _]. congruence.
Qed.

Lemma harmonize_response_scale_injective_witness :
  NoDup (value YES_NO_DONT_KNOW)
  ∧ position_of "Unsure" (value YES_NO_UNSURE) 2
  ∧ (2 < length (value YES_NO_DONT_KNOW))%nat
  ∧ "Unsure" = "Unsure".
Proof.
  assert (NoDup (value YES_NO_DONT_KNOW)) as Hnd.
  { apply (bool_decide_unpack _). vm_compute. exact I. }
  assert (position_of "Unsure" (value YES_NO_UNSURE) 2) as Hpos.
  { apply list_index_Return. reflexivity. }
  assert (2 < length (value YES_NO_DONT_KNOW))%nat as Hlt.
  { simpl. lia. }
  split; [done |]. split; [done |]. split; [done |].
  exact (harmonize_response_scale_injective
           "Unsure" "Unsure" _ _ 2 2 Hnd Hpos Hpos Hlt Hlt eq_refl).
Defined.

(** ** More on the merge of [get_all_questions] *)

Section merge.
Context {A : Type}.
Implicit Types (m : gmap string A).

Lemma map_size_union_le m1 m2 :
  (size (m1 ∪ m2) ≤ size m1 + size m2)%nat.
Proof.
  rewrite <-!size_dom, dom_union_L, size_union_alt.
  assert (dom m2 ∖ dom m1 ⊆ dom m2) as Hsub.
  { by intros k [? _]%elem_of_difference. }
  apply subseteq_size in Hsub. lia.
Qed.

Lemma map_size_union_eq m1 m2 :
  size (m1 ∪ m2) = (size m1 + size m2)%nat ↔ m1 ##ₘ m2.
Proof.
  split; [| apply map_size_disj_union].
  rewrite <-!size_dom, dom_union_L, size_union_alt. intros Hsize.
  apply map_disjoint_dom.
  assert (dom m2 ∖ dom m1 = dom m2) as Heq.
  { apply set_subseteq_size_eq; [| lia].
    by intros k [? _]%elem_of_difference. }
  apply elem_of_disjoint. intros k Hk1 Hk2.
  rewrite <-Heq in Hk2. apply elem_of_difference in Hk2 as [_ Hk2]. done.
Qed.

End merge.

(** X8: [get_all_questions] looks a key up in the categories from the
    last merged to the first: historical, supplementary, demographic, core.
    On a key shared by two categories the later category decides. *)
Theorem get_all_questions_precedence (self : UnifiedSchema) (qid : string) :
  get_all_questions self !! qid
  = match historical_questions self !! qid with
    | Some q => Some q
    | None =>
        match supplementary_questions self !! qid with
        | Some q => Some q
        | None =>
            match demographic_questions self !! qid with
            | Some q => Some q
            | None => core_questions self !! qid
            end
        end
    end.
Proof.
  rewrite get_all_questions_unfold, !lookup_union.
  destruct (historical_questions self !! qid),
    (supplementary_questions self !! qid),
    (demographic_questions self !! qid),
    (core_questions self !! qid); done.
Qed.

(** X9: the keys of [get_all_questions] are the keys of the four
    categories together; its size is at most the sum of their sizes, and
    equals the sum exactly when no key is shared between two categories. *)
Theorem get_all_questions_keys_and_size (self : UnifiedSchema) :
  dom (get_all_questions self)
  = dom (core_questions self) ∪ dom (demographic_questions self)
    ∪ dom (supplementary_questions self) ∪ dom (historical_questions self)
  ∧ (size (get_all_questions self)
     ≤ size (core_questions self) + size (demographic_questions self)
       + size (supplementary_questions self)
       + size (historical_questions self))%nat
  ∧ (size (get_all_questions self)
     = (size (core_questions self) + size (demographic_questions self)
        + size (supplementary_questions self)
        + size (historical_questions self))%nat
     ↔ categories_disjoint self).
Proof.
  rewrite get_all_questions_unfold.
  set (c := core_questions self). set (d := demographic_questions self).
  set (s := supplementary_questions self).
  set (h := historical_questions self).
  pose proof (map_size_union_le h (s ∪ (d ∪ c))) as Hh.
  pose proof (map_size_union_le s (d ∪ c)) as Hs.
  pose proof (map_size_union_le d c) as Hd.
  split; [| split].
  - rewrite !dom_union_L. apply set_eq. intros k.
    rewrite !elem_of_union. tauto.
  - lia.
  - unfold categories_disjoint. fold c d s h. split.
    + intros Hsize.
      assert (h ##ₘ s ∪ (d ∪ c)) as Hdh by (apply map_size_union_eq; lia).
      assert (s ##ₘ d ∪ c) as Hds by (apply map_size_union_eq; lia).
      assert (d ##ₘ c) as Hdc by (apply map_size_union_eq; lia).
      apply map_disjoint_union_r in Hdh as [Hhs [Hhd Hhc]%map_disjoint_union_r].
      apply map_disjoint_union_r in Hds as [Hsd Hsc].
      repeat split; by symmetry.
    + intros (Hcd & Hcs & Hch & Hds & Hdh & Hsh).
      rewrite !map_size_disj_union; [lia | ..].
      * by symmetry.
      * apply map_disjoint_union_r_2; by symmetry.
      * repeat apply map_disjoint_union_r_2; by symmetry.
Qed.

(** ** How the queries relate *)

(** X10: raising the threshold of [get_longitudinal_questions] can only
    remove questions. *)
Theorem get_longitudinal_questions_antitone
    (self : UnifiedSchema) (k1 k2 : Z) :
  k1 ≤ k2 →
  get_longitudinal_questions self k2 ⊆ get_longitudinal_questions self k1.
Proof.
  intros Hk. apply map_subseteq_spec. intros qid q.
  rewrite !get_longitudinal_questions_lookup. intros [? ?].
  split; [done | lia].
Qed.

Lemma get_longitudinal_questions_antitone_witness :
  2 ≤ 4
  ∧ get_longitudinal_questions __init__ 4
    ⊆ get_longitudinal_questions __init__ 2.
Proof.
  assert (2 ≤ 4) as Hk by lia.
  split; [done |].
  exact (get_longitudinal_questions_antitone __init__ 2 4 Hk).
Defined.

(** X11: when no key is shared between two categories, the core trend
    questions are exactly the questions of
    [get_longitudinal_questions(min_years=3)] whose key is a key of the core
    category. *)
Theorem get_core_trend_questions_longitudinal
    (self : UnifiedSchema) (qid : string) (q : QuestionMapping) :
  categories_disjoint self →
  get_core_trend_questions self !! qid = Some q
  ↔ get_longitudinal_questions self 3 !! qid = Some q
    ∧ qid ∈ dom (core_questions self).
Proof.
  intros Hdisj.
  rewrite get_core_trend_questions_lookup, get_longitudinal_questions_lookup.
  split.
  - intros [Hq Hlen]. split; [split; [| lia] | by eapply elem_of_dom_2].
    apply get_all_questions_lookup; [done |].
    exists (core_questions self). split; [constructor | done].
  - intros [[Hq Hlen] [q' Hq']%elem_of_dom]. split; [| lia].
    assert (get_all_questions self !! qid = Some q') as Hall.
    { apply get_all_questions_lookup; [done |].
      exists (core_questions self). split; [constructor | done]. }
    congruence.
Qed.

Lemma get_core_trend_questions_longitudinal_witness :
  categories_disjoint __init__
  ∧ ∃ q, get_core_trend_questions __init__ !! "open_data_attitude" = Some q
         ∧ get_longitudinal_questions __init__ 3 !! "open_data_attitude"
           = Some q.
Proof.
  split; [apply init_categories_disjoint |].
  eexists. split; [reflexivity |].
  refine (proj1 (proj1 (get_core_trend_questions_longitudinal
                   __init__ "open_data_attitude" _ init_categories_disjoint)
                   _)).
  reflexivity.
Defined.

(** X12: without that condition the two queries can disagree: a
    demographic entry under a core key hides the core question from
    [get_longitudinal_questions] while [get_core_trend_questions] still
    returns it. *)
Theorem get_core_trend_questions_shadowed :
  ∃ self qid q,
    get_core_trend_questions self !! qid = Some q
    ∧ get_longitudinal_questions self 3 !! qid = None.
Proof.
  pose (q3 := {| question_id := "a"; question_text := "";
                 question_type := BINARY; response_scale := [];
                 years_available := [2022; 2023; 2024];
                 column_mappings := ∅; notes := None |}).
  pose (q1 := {| question_id := "a"; question_text := "";
                 question_type := BINARY; response_scale := [];
                 years_available := [2024];
                 column_mappings := ∅; notes := None |}).
  exists {| core_questions := dict_literal [("a", q3)];
            demographic_questions := dict_literal [("a", q1)];
            supplementary_questions := ∅;
            historical_questions := ∅ |}, "a", q3.
  split; reflexivity.
Qed.

(** ** The enumerations *)

Lemma value_NoDup (s : ResponseScale) : NoDup (value s).
Proof. destruct s; compute_done. Qed.

(** X13: no two members of [ResponseScale] have the same value, and no two
    members of [QuestionType] either, so neither enumeration has an alias;
    and no named scale repeats a label. *)
Theorem enumeration_values_distinct :
  (∀ s1 s2 : ResponseScale, s1 ≠ s2 → value s1 ≠ value s2)
  ∧ (∀ t1 t2 : QuestionType,
       t1 ≠ t2 → QuestionType_value t1 ≠ QuestionType_value t2)
  ∧ (∀ s : ResponseScale, NoDup (value s)).
Proof.
  split; [| split].
  - intros s1 s2 Hne. destruct s1, s2; try done; compute_done.
  - intros t1 t2 Hne. destruct t1, t2; try done; compute_done.
  - apply value_NoDup.
Qed.

Lemma enumeration_values_distinct_witness :
  AGREEMENT_5 ≠ AGREEMENT_5_ALT
  ∧ value AGREEMENT_5 ≠ value AGREEMENT_5_ALT
  ∧ LIKERT_5 ≠ LIKERT_4
  ∧ QuestionType_value LIKERT_5 ≠ QuestionType_value LIKERT_4.
Proof.
  assert (AGREEMENT_5 ≠ AGREEMENT_5_ALT) as Hs by discriminate.
  assert (LIKERT_5 ≠ LIKERT_4) as Ht by discriminate.
  refine (conj Hs (conj _ (conj Ht _))).
  - exact (proj1 enumeration_values_distinct _ _ Hs).
  - exact (proj1 (proj2 enumeration_values_distinct) _ _ Ht).
Defined.

(** X14: between two named scales with the same number of labels,
    [harmonize_response_scale] sends every label of the first to a label of
    the second, and harmonizing back returns the original label. *)
Theorem harmonize_named_scales_round_trip
    (s1 s2 : ResponseScale) (response : string) :
  length (value s1) = length (value s2) →
  response ∈ value s1 →
  ∃ t, t ∈ value s2
       ∧ harmonize_response_scale response (value s1) (value s2) = Return t
       ∧ harmonize_response_scale t (value s2) (value s1) = Return response.
Proof.
  intros Hlen Hin. destruct (position_of_member _ _ Hin) as [i Hpos].
  pose proof (position_of_lt _ _ _ Hpos) as Hi.
  assert (i < length (value s2))%nat as Hlt by lia.
  destruct (harmonize_there_and_back _ _ _ _ (value_NoDup s2) Hpos Hlt)
    as (t & Ht & Hthere & Hback).
  exists t. split; [by eapply list_elem_of_lookup_2 | done].
Qed.

Lemma harmonize_named_scales_round_trip_witness :
  length (value AGREEMENT_5) = length (value AGREEMENT_5_ALT)
  ∧ ("Neutral" ∈ value AGREEMENT_5)
  ∧ ∃ t, t ∈ value AGREEMENT_5_ALT
         ∧ harmonize_response_scale
             "Neutral" (value AGREEMENT_5) (value AGREEMENT_5_ALT)
           = Return t
         ∧ harmonize_response_scale
             t (value AGREEMENT_5_ALT) (value AGREEMENT_5)
           = Return "Neutral".
Proof.
  assert (length (value AGREEMENT_5) = length (value AGREEMENT_5_ALT))
    as Hlen by reflexivity.
  assert ("Neutral" ∈ value AGREEMENT_5) as Hin.
  { apply list_contains_true. reflexivity. }
  split; [done |]. split; [done |].
  exact (harmonize_named_scales_round_trip _ _ _ Hlen Hin).
Defined.

(** ** More on the catalogue built by the constructor *)

Lemma init_columns_unambiguous :
  columns_unambiguous create_harmonized_column_mapping.
Proof. unfold columns_unambiguous. compute_done. Qed.

Lemma init_years_shape :
  map_Forall (λ _ q,
      years_available q ≠ []
      ∧ StronglySorted Z.lt (years_available q)
      ∧ Forall (λ year, year ∈ survey_years) (years_available q))
    (get_all_questions __init__).
Proof. compute_done. Qed.

Lemma init_response_scales :
  map_Forall (λ _ q,
      response_scale q ≠ []
      ∧ NoDup (response_scale q)
      ∧ default (length (response_scale q))
          (likert_points (question_type q))
        = length (response_scale q))
    (get_all_questions __init__).
Proof. compute_done. Qed.

(** X15: a question is returned by [get_questions_by_year] for a year
    exactly when [create_harmonized_column_mapping] has a source column for
    that question and that year. *)
Theorem year_query_agrees_with_column_mapping (year : Z) (qid : string) :
  is_Some (get_questions_by_year __init__ year !! qid)
  ↔ ∃ cols column,
      create_harmonized_column_mapping !! qid = Some cols
      ∧ cols !! year = Some column.
Proof.
  rewrite create_harmonized_column_mapping_fmap. split.
  - intros [q [Hq Hyear]%get_questions_by_year_lookup].
    pose proof (init_all_columns_match_years _ _ Hq) as Hdom. simpl in Hdom.
    assert (year ∈ dom (column_mappings q)) as [column Hcol]%elem_of_dom.
    { rewrite Hdom. by apply elem_of_list_to_set. }
    exists (column_mappings q), column.
    split; [by rewrite lookup_fmap, Hq | done].
  - intros (cols & column & Hcols & Hcol).
    rewrite lookup_fmap in Hcols.
    destruct (get_all_questions __init__ !! qid) as [q|] eqn:Hq;
      [| discriminate].
    injection Hcols as <-. exists q.
    apply get_questions_by_year_lookup. split; [done |].
    pose proof (init_all_columns_match_years _ _ Hq) as Hdom. simpl in Hdom.
    apply (elem_of_list_to_set (C := gset Z)). rewrite <-Hdom.
    by eapply elem_of_dom_2.
Qed.

(** X16: within one year a source column names one question only: two
    entries of [create_harmonized_column_mapping] with the same column for
    the same year are the same entry. *)
Theorem source_column_identifies_question
    (qid1 qid2 : string) (cols1 cols2 : gmap Z string)
    (year : Z) (column : string) :
  create_harmonized_column_mapping !! qid1 = Some cols1 →
  create_harmonized_column_mapping !! qid2 = Some cols2 →
  cols1 !! year = Some column →
  cols2 !! year = Some column →
  qid1 = qid2.
Proof.
  intros H1 H2 Hc1 Hc2.
  destruct (init_columns_unambiguous _ _ H1 _ _ H2) as [Heq | Hne];
    [done |].
  by destruct (Hne _ _ Hc1).
Qed.

Lemma source_column_identifies_question_witness :
  ∃ cols,
    create_harmonized_column_mapping !! "research_area" = Some cols
    ∧ cols !! 2022 = Some "Q2.7"
    ∧ "research_area" = "research_area".
Proof.
  eexists. split; [reflexivity |]. split; [reflexivity |].
  refine (source_column_identifies_question
            "research_area" "research_area" _ _ 2022 "Q2.7" _ _ _ _);
    reflexivity.
Defined.

(** X17: for every question the catalogue hands out, [years_available]
    is not empty, is in strictly increasing order (so without repetition)
    and holds survey years only. *)
Theorem years_available_shape
    (d : gmap string QuestionMapping) (qid : string) (q : QuestionMapping) :
  exposed __init__ d →
  d !! qid = Some q →
  years_available q ≠ []
  ∧ StronglySorted Z.lt (years_available q)
  ∧ Forall (λ year, year ∈ survey_years) (years_available q).
Proof.
  intros Hd Hq. apply (init_years_shape qid).
  by apply (init_exposed_lookup d).
Qed.

Lemma years_available_shape_witness :
  ∃ q, exposed __init__ (get_core_trend_questions __init__)
       ∧ get_core_trend_questions __init__ !! "preprinting_attitude" = Some q
       ∧ years_available q ≠ []
       ∧ StronglySorted Z.lt (years_available q)
       ∧ Forall (λ year, year ∈ survey_years) (years_available q).
Proof.
  eexists. split; [apply exposed_core_trend |]. split; [reflexivity |].
  refine (years_available_shape
            (get_core_trend_questions __init__) "preprinting_attitude"
            _ _ _).
  - apply exposed_core_trend.
  - reflexivity.
Defined.

(** X18: [get_questions_by_year] returns a non-empty dictionary exactly for
    the six years 2017, 2019, 2021, 2022, 2023 and 2024; for every other
    integer it returns the empty dictionary. *)
Theorem get_questions_by_year_nonempty (year : Z) :
  get_questions_by_year __init__ year ≠ ∅ ↔ year ∈ survey_years.
Proof.
  split.
  - intros Hne. destruct (decide (year ∈ survey_years)) as [| Hnin]; [done |].
    destruct Hne. apply map_empty_filter. intros qid q Hq. simpl.
    destruct (init_years_shape _ _ Hq) as (_ & _ & Hyears).
    intros Hin. apply Hnin. by apply (proj1 (Forall_forall _ _) Hyears).
  - unfold survey_years. rewrite !elem_of_cons, elem_of_nil.
    intros [-> | [-> | [-> | [-> | [-> | [-> | []]]]]]]; compute_done.
Qed.

(** X19: for every question the catalogue hands out, [response_scale] is
    not empty and repeats no label, and a question of type [LIKERT_n] has
    exactly [n] labels. *)
Theorem response_scale_shape
    (d : gmap string QuestionMapping) (qid : string) (q : QuestionMapping) :
  exposed __init__ d →
  d !! qid = Some q →
  response_scale q ≠ []
  ∧ NoDup (response_scale q)
  ∧ ∀ n, likert_points (question_type q) = Some n →
         length (response_scale q) = n.
Proof.
  intros Hd Hq.
  destruct (init_response_scales qid q (init_exposed_lookup d _ _ Hd Hq))
    as (Hne & Hnd & Hlikert).
  split; [done |]. split; [done |].
  intros n Hn. rewrite Hn in Hlikert. simpl in Hlikert. congruence.
Qed.

Lemma response_scale_shape_witness :
  ∃ q, exposed __init__ (get_all_questions __init__)
       ∧ get_all_questions __init__ !! "data_sharing_effort" = Some q
       ∧ likert_points (question_type q) = Some 4%nat
       ∧ length (response_scale q) = 4%nat.
Proof.
  eexists. split; [apply exposed_all |]. split; [reflexivity |].
  split; [reflexivity |].
  refine (proj2 (proj2 (response_scale_shape
            (get_all_questions __init__) "data_sharing_effort" _ _ _))
            4%nat _).
  - apply exposed_all.
  - reflexivity.
  - reflexivity.
Defined.
